(** * Alert.tizen.js: the cross-platform alert dispatcher and its adapters

    A shallow embedding of [Libraries/Utilities/Alert.tizen.js].  The module
    has one facade, [Alert.alert], which looks at [Platform.OS] and forwards
    to [AlertIOS.alert] or to one of the three wrappers [AlertAndroid.alert],
    [AlertWindows.alert] and [AlertTizen.alert].  Each wrapper builds a config
    object, and hands it to the native dialog manager together with two
    closures (an error callback and a result callback).

    JavaScript objects used as string-keyed maps are [gmap string string];
    the observable behaviour of a call (console output, calls into the native
    modules, invocations of caller-supplied [onPress] functions, a thrown
    [TypeError]) is a trace of [Effect]s together with a completion. *)

From Stdlib Require Import ZArith Ascii.
From stdpp Require Import gmap strings list.

(** ** JavaScript values *)

(** A Flow type [?T], or an optional parameter [x?: T]: the value may be
    [undefined], [null], or a [T]. *)
Inductive Nullable (A : Type) : Type :=
| Undefined
| Null
| Defined (a : A).
Arguments Undefined {A}.
Arguments Null {A}.
Arguments Defined {A} a.

(** Primitive values the native side hands to the result callback and exports
    as constants.  Numbers are the integer codes the dialog managers export. *)
Inductive JsPrim : Type :=
| PUndefined
| PNull
| PBool (b : bool)
| PNum (z : Z)
| PStr (s : string).

#[global] Instance JsPrim_eq_dec : EqDecision JsPrim.
Proof. solve_decision. Defined.

(** [a === b] on primitives. *)
Definition strict_eq (a b : JsPrim) : bool := bool_decide (a = b).

(** [AlertButtonStyle] is imported from [AlertIOS]: one of ['default'],
    ['cancel'], ['destructive']. *)
Inductive AlertButtonStyle : Type :=
| StyleDefault
| StyleCancel
| StyleDestructive.

(** [AlertType] is imported from [AlertIOS], where it is a union of string
    literals; the dispatcher only passes it along. *)
Definition AlertType : Type := string.

(** A caller-supplied [onPress] function.  Its body belongs to the caller;
    this layer only decides whether it is called, so it is named by an
    identifier and a call is recorded as the effect [OnPress]. *)
Definition Callback : Type := nat.

(** One element of the Flow type [Buttons]. *)
Record ButtonSpec : Type := {
  text : option string;
  onPress : option Callback;
  style : option AlertButtonStyle
}.

Definition Buttons : Type := list ButtonSpec.

(** What [console.warn] and [console.log] are given. *)
Inductive JsVal : Type :=
| VPrim (p : JsPrim)
| VObj (b : ButtonSpec).

Definition of_string (s : Nullable string) : JsVal :=
  match s with
  | Undefined => VPrim PUndefined
  | Null => VPrim PNull
  | Defined s => VPrim (PStr s)
  end.

Definition of_button (b : option ButtonSpec) : JsVal :=
  match b with
  | None => VPrim PUndefined
  | Some b => VObj b
  end.

(** Truthiness of a string: only the empty string is falsy. *)
Definition truthy (s : string) : bool :=
  match s with
  | EmptyString => false
  | String _ _ => true
  end.

(** [v || d] for [v : ?string]. *)
Definition or_else (v : Nullable string) (d : string) : string :=
  match v with
  | Defined s => if truthy s then s else d
  | _ => d
  end.

(** [b.text || d] for the optional property [text]. *)
Definition text_or (b : ButtonSpec) (d : string) : string :=
  match text b with
  | Some s => if truthy s then s else d
  | None => d
  end.

(** [l.slice(b, e)] for non-negative indices, and [l.pop()] returning the
    removed element (or [None] for [undefined]) and the array that is left. *)
Definition slice {A} (b e : nat) (l : list A) : list A := take (e - b) (drop b l).

Definition pop {A} (l : list A) : option A * list A := (last l, removelast l).

(** ** Effects *)

Inductive Exn : Type := TypeError.

Inductive NativeModule : Type :=
| DialogManagerAndroid
| DialogManagerWindows
| DialogManagerTizen.

(** The constants a dialog manager exports. *)
Module DialogModule.
Record t : Type := {
  buttonClicked : JsPrim;
  buttonPositive : JsPrim;
  buttonNegative : JsPrim;
  buttonNeutral : JsPrim
}.
End DialogModule.

(** [AlertIOS_alert] carries the arguments of [AlertIOS.alert]; its last
    component is [None] for the three-argument call.  [ShowAlert] carries the
    three arguments of [showAlert]; the two closures are functions to the
    trace and completion they produce when the native side calls them. *)
#[local] Unset Elimination Schemes.
Inductive Effect : Type :=
| ConsoleWarn (v : JsVal)
| ConsoleLog (v : JsVal)
| OnPress (cb : Callback)
| AlertIOS_alert (title message : Nullable string) (buttons : Nullable Buttons)
    (type : option (Nullable AlertType))
| ShowAlert (m : NativeModule) (config : gmap string string)
    (errorCallback : string -> list Effect * (Exn + unit))
    (resultCallback : JsPrim -> JsPrim -> list Effect * (Exn + unit)).
#[local] Set Elimination Schemes.

(** A computation: the effects performed so far and either the exception
    that stopped it or its value. *)
Definition M (A : Type) : Type := list Effect * (Exn + A).

#[global] Instance M_ret : MRet M := fun A a => ([], inr a).

#[global] Instance M_bind : MBind M := fun A B f m =>
  match m with
  | (t, inl e) => (t, inl e)
  | (t, inr a) => let '(t', r) := f a in (t ++ t', r)
  end.

Definition perform (e : Effect) : M unit := ([e], inr tt).
Definition skip : M unit := mret tt.
Definition throw {A} (e : Exn) : M A := ([], inl e).

Definition console_warn (v : JsVal) : M unit := perform (ConsoleWarn v).
Definition console_log (v : JsVal) : M unit := perform (ConsoleLog v).

Definition trace {A} (m : M A) : list Effect := fst m.
Definition completion {A} (m : M A) : Exn + A := snd m.

(** The text of [console.warn] in the dispatcher; it contains double quotes
    around the word type. *)
Definition dquote : string := String (ascii_of_nat 34) EmptyString.

Definition deprecation_warning : string :=
  "Alert.alert() with a 4th " +:+ dquote +:+ "type" +:+ dquote +:+
  " parameter is deprecated and will be removed. Use AlertIOS.prompt() instead.".

(** [b.onPress && b.onPress()] where [b] is a local that may hold
    [undefined]: reading a property of [undefined] throws. *)
Definition press (b : option ButtonSpec) : M unit :=
  match b with
  | None => throw TypeError
  | Some b =>
      match onPress b with
      | None => skip
      | Some f => perform (OnPress f)
      end
  end.

(** The literal [{text: 'OK'}]. *)
Definition ok_button : ButtonSpec :=
  {| text := Some "OK"; onPress := None; style := None |}.

(** ** The wrappers *)

(** Wrapper around the Android native module. *)
Module AlertAndroid.
Section Native.
Variable DialogModuleAndroid : DialogModule.t.

Definition alert (title message : Nullable string) (buttons : Nullable Buttons) : M unit :=
  let config : gmap string string :=
    <["message" := or_else message EmptyString]> {["title" := or_else title EmptyString]} in
  let validButtons : Buttons :=
    match buttons with
    | Defined bs => slice 0 3 bs
    | _ => [ok_button]
    end in
  let '(buttonPositive, validButtons) := pop validButtons in
  let '(buttonNegative, validButtons) := pop validButtons in
  let '(buttonNeutral, validButtons) := pop validButtons in
  let config :=
    match buttonNeutral with
    | Some b => <["buttonNeutral" := text_or b EmptyString]> config
    | None => config
    end in
  let config :=
    match buttonNegative with
    | Some b => <["buttonNegative" := text_or b EmptyString]> config
    | None => config
    end in
  let config :=
    match buttonPositive with
    | Some b => <["buttonPositive" := text_or b EmptyString]> config
    | None => config
    end in
  perform (ShowAlert DialogManagerAndroid config
    (fun errorMessage => console_warn (of_string message))
    (fun action buttonKey =>
       if negb (strict_eq action (DialogModule.buttonClicked DialogModuleAndroid)) then
         skip
       else if strict_eq buttonKey (DialogModule.buttonNeutral DialogModuleAndroid) then
         press buttonNeutral
       else if strict_eq buttonKey (DialogModule.buttonNegative DialogModuleAndroid) then
         press buttonNegative
       else if strict_eq buttonKey (DialogModule.buttonPositive DialogModuleAndroid) then
         press buttonPositive
       else skip)).

End Native.
End AlertAndroid.

(** Wrapper around the Windows native module. *)
Module AlertWindows.
Section Native.
Variable DialogModuleWindows : DialogModule.t.

Definition alert (title message : Nullable string) (buttons : Nullable Buttons) : M unit :=
  let config : gmap string string :=
    <["message" := or_else message EmptyString]> {["title" := or_else title EmptyString]} in
  let validButtons : Buttons :=
    match buttons with
    | Defined bs => slice 0 2 bs
    | _ => [ok_button]
    end in
  let '(buttonPositive, validButtons) := pop validButtons in
  let '(buttonNegative, validButtons) := pop validButtons in
  let config :=
    match buttonNegative with
    | Some b => <["buttonNegative" := text_or b EmptyString]> config
    | None => config
    end in
  let config :=
    match buttonPositive with
    | Some b => <["buttonPositive" := text_or b EmptyString]> config
    | None => config
    end in
  perform (ShowAlert DialogManagerWindows config
    (fun errorMessage => console_warn (of_string message))
    (fun action buttonKey =>
       if negb (strict_eq action (DialogModule.buttonClicked DialogModuleWindows)) then
         skip
       else if strict_eq buttonKey (DialogModule.buttonNegative DialogModuleWindows) then
         press buttonNegative
       else if strict_eq buttonKey (DialogModule.buttonPositive DialogModuleWindows) then
         press buttonPositive
       else skip)).

End Native.
End AlertWindows.

(** Wrapper around the tizen native module. *)
Module AlertTizen.
Section Native.
Variable DialogModuleTizen : DialogModule.t.

Definition alert (title message : Nullable string) (buttons : Nullable Buttons) : M unit :=
  let config : gmap string string :=
    <["message" := or_else message EmptyString]> {["title" := or_else title EmptyString]} in
  let validButtons : Buttons :=
    match buttons with
    | Defined bs => slice 0 3 bs
    | _ => [ok_button]
    end in
  let '(buttonPositive, validButtons) := pop validButtons in
  let '(buttonNegative, validButtons) := pop validButtons in
  let '(buttonNeutral, validButtons) := pop validButtons in
  let config :=
    match buttonNeutral with
    | Some b => <["buttonNeutral" := text_or b EmptyString]> config
    | None => config
    end in
  let config :=
    match buttonNegative with
    | Some b => <["buttonNegative" := text_or b EmptyString]> config
    | None => config
    end in
  let config :=
    match buttonPositive with
    | Some b => <["buttonPositive" := text_or b EmptyString]> config
    | None => config
    end in
  perform (ShowAlert DialogManagerTizen config
    (fun errorMessage => console_warn (of_string message))
    (fun action buttonKey =>
       if negb (strict_eq action (DialogModule.buttonClicked DialogModuleTizen)) then
         skip
       else
         console_log (VPrim (PStr "-----------------alert----sss-------------"));;
         console_log (VPrim buttonKey);;
         console_log (VPrim (PStr "DialogModuleTizen:"));;
         console_log (VPrim (DialogModule.buttonNeutral DialogModuleTizen));;
         console_log (VPrim (DialogModule.buttonNegative DialogModuleTizen));;
         console_log (VPrim (DialogModule.buttonPositive DialogModuleTizen));;
         if strict_eq buttonKey (DialogModule.buttonNeutral DialogModuleTizen) then
           press buttonNeutral
         else if strict_eq buttonKey (DialogModule.buttonNegative DialogModuleTizen) then
           press buttonNegative
         else if strict_eq buttonKey (DialogModule.buttonPositive DialogModuleTizen) then
           console_log (of_button buttonPositive);;
           press buttonPositive
         else skip)).

End Native.
End AlertTizen.

(** ** The dispatcher *)

Module Alert.
Section Runtime.
(** [Platform.OS] and the three native modules obtained by [require]. *)
Variable Platform_OS : string.
Variable DialogModuleAndroid DialogModuleWindows DialogModuleTizen : DialogModule.t.

Definition alert (title message : Nullable string) (buttons : Nullable Buttons)
    (type : Nullable AlertType) : M unit :=
  if String.eqb Platform_OS "ios" then
    if negb (match type with Undefined => true | _ => false end) then
      console_warn (VPrim (PStr deprecation_warning));;
      perform (AlertIOS_alert title message buttons (Some type))
    else
      perform (AlertIOS_alert title message buttons None)
  else if String.eqb Platform_OS "android" then
    AlertAndroid.alert DialogModuleAndroid title message buttons
  else if String.eqb Platform_OS "windows" then
    AlertWindows.alert DialogModuleWindows title message buttons
  else if String.eqb Platform_OS "tizen" then
    AlertTizen.alert DialogModuleTizen title message buttons
  else skip.

End Runtime.
End Alert.

(** ** Observations on a computation *)

(** The arguments of one [showAlert] call. *)
Record ShowAlertCall : Type := {
  sa_module : NativeModule;
  sa_config : gmap string string;
  sa_errorCallback : string -> M unit;
  sa_resultCallback : JsPrim -> JsPrim -> M unit
}.

(** The [showAlert] calls in a trace, in order. *)
Fixpoint showAlert_calls (t : list Effect) : list ShowAlertCall :=
  match t with
  | [] => []
  | ShowAlert m c e r :: t =>
      {| sa_module := m; sa_config := c; sa_errorCallback := e; sa_resultCallback := r |}
      :: showAlert_calls t
  | _ :: t => showAlert_calls t
  end.

(** The [onPress] functions called in a trace, in order. *)
Fixpoint presses (t : list Effect) : list Callback :=
  match t with
  | [] => []
  | OnPress f :: t => f :: presses t
  | _ :: t => presses t
  end.

(** The config keys that name a button role, and how many of them a config
    carries. *)
Definition role_keys : list string := ["buttonNeutral"; "buttonNegative"; "buttonPositive"].

Definition button_entries (config : gmap string string) : nat :=
  length (filter (fun k => is_Some (config !! k)) role_keys).

(** Constants as the Android dialog manager exports them, for examples. *)
Definition sample_constants : DialogModule.t :=
  {| DialogModule.buttonClicked := PStr "buttonClicked";
     DialogModule.buttonPositive := PNum (-1);
     DialogModule.buttonNegative := PNum (-2);
     DialogModule.buttonNeutral := PNum (-3) |}.

Definition sample (m : NativeModule) : DialogModule.t := sample_constants.

(** The wrapper that talks to native module [m], given the constants each
    native module exports. *)
Definition adapter (constants : NativeModule -> DialogModule.t) (m : NativeModule)
    : Nullable string -> Nullable string -> Nullable Buttons -> M unit :=
  match m with
  | DialogManagerAndroid => AlertAndroid.alert (constants m)
  | DialogManagerWindows => AlertWindows.alert (constants m)
  | DialogManagerTizen => AlertTizen.alert (constants m)
  end.

(** The configs handed to [showAlert] by a computation. *)
Definition configs (c : M unit) : list (gmap string string) :=
  sa_config <$> showAlert_calls (trace c).

(** The three positional roles, the config key and the native constant of
    each. *)
Inductive Role : Type := Positive | Negative | Neutral.

Definition role_key (r : Role) : string :=
  match r with
  | Positive => "buttonPositive"
  | Negative => "buttonNegative"
  | Neutral => "buttonNeutral"
  end.

Definition role_constant (DM : DialogModule.t) (r : Role) : JsPrim :=
  match r with
  | Positive => DialogModule.buttonPositive DM
  | Negative => DialogModule.buttonNegative DM
  | Neutral => DialogModule.buttonNeutral DM
  end.

(** The second argument of [slice] in each wrapper. *)
Definition max_buttons (m : NativeModule) : nat :=
  match m with
  | DialogManagerAndroid => 3
  | DialogManagerWindows => 2
  | DialogManagerTizen => 3
  end.

(** The value of the local [validButtons] before the first [pop]. *)
Definition validButtons (m : NativeModule) (buttons : Nullable Buttons) : Buttons :=
  match buttons with
  | Defined bs => slice 0 (max_buttons m) bs
  | _ => [ok_button]
  end.

(** The values of the locals [buttonPositive], [buttonNegative] and
    [buttonNeutral] after the pops: the button assigned to each role, if any.
    The Windows wrapper pops twice and has no local [buttonNeutral]. *)
Definition assigned (m : NativeModule) (buttons : Nullable Buttons) (r : Role)
    : option ButtonSpec :=
  let v := validButtons m buttons in
  match r with
  | Positive => fst (pop v)
  | Negative => fst (pop (snd (pop v)))
  | Neutral =>
      match m with
      | DialogManagerWindows => None
      | _ => fst (pop (snd (pop (snd (pop v)))))
      end
  end.

(** How many pops precede the one that fills a role. *)
Definition role_index (r : Role) : nat :=
  match r with
  | Positive => 0
  | Negative => 1
  | Neutral => 2
  end.

(** The labels a config gives to the roles it carries, in the order neutral,
    negative, positive. *)
Definition role_labels (config : gmap string string) : list string :=
  omap (fun k => config !! k) role_keys.

(** An argument that was not supplied, or supplied as [null]. *)
Definition absent {A} (v : Nullable A) : Prop := v = Undefined \/ v = Null.

(** The config every wrapper starts from. *)
Definition base_config (title message : Nullable string) : gmap string string :=
  <["message" := or_else message EmptyString]> {["title" := or_else title EmptyString]}.

(** The label a button contributes to the config: [b.text || '']. *)
Definition label (b : ButtonSpec) : string := text_or b EmptyString.

(** A wrapper [alert] truncates to [n] buttons: whatever list it is given,
    it makes one native call whose config names the roles of the first [n]
    buttons and no others, so it carries at most [n] button entries. *)
Definition truncates_to
    (alert : Nullable string -> Nullable string -> Nullable Buttons -> M unit)
    (n : nat) : Prop :=
  forall (title message : Nullable string) (buttons : Buttons),
  exists c, configs (alert title message (Defined buttons)) = [c]
    /\ role_labels c = label <$> take n buttons
    /\ button_entries c = Nat.min (length buttons) n
    /\ button_entries c <= n.

(** The buttons of the example call in the documentation of [Alert]. *)
Definition later_button : ButtonSpec :=
  {| text := Some "Later"; onPress := None; style := None |}.
Definition cancel_button : ButtonSpec :=
  {| text := Some "Cancel"; onPress := None; style := Some StyleCancel |}.

(** The order in which the result callback of each wrapper compares the
    role key with the native constants. *)
Definition comparisons (m : NativeModule) : list Role :=
  match m with
  | DialogManagerWindows => [Negative; Positive]
  | _ => [Neutral; Negative; Positive]
  end.

(** A summary of a result callback, used to reason about all wrappers at
    once: the [onPress] functions it calls and how it completes, given the
    button held by each role. *)
Definition summary (m : NativeModule) (DM : DialogModule.t)
    (held : Role -> option ButtonSpec) (action buttonKey : JsPrim)
    : list Callback * (Exn + unit) :=
  if negb (strict_eq action (DialogModule.buttonClicked DM)) then ([], inr tt)
  else
    match List.find (fun r => strict_eq buttonKey (role_constant DM r)) (comparisons m) with
    | None => ([], inr tt)
    | Some r =>
        match held r with
        | None => ([], inl TypeError)
        | Some b =>
            (match onPress b with Some f => [f] | None => [] end, inr tt)
        end
    end.

(** The three role constants of a dialog manager are different values. *)
Definition distinct_roles (DM : DialogModule.t) : Prop :=
  NoDup [role_constant DM Positive; role_constant DM Negative; role_constant DM Neutral].

(** Buttons for examples: a button with an [onPress], and one with neither
    text nor style. *)
Definition with_onPress (b : ButtonSpec) (f : Callback) : ButtonSpec :=
  {| text := text b; onPress := Some f; style := style b |}.

Definition unlabelled_button : ButtonSpec :=
  {| text := None; onPress := Some 7; style := None |}.

(** The value of [Platform.OS] for which the dispatcher picks the wrapper
    of native module [m], and the constants the dispatcher hands to it. *)
Definition platform_of (m : NativeModule) : string :=
  match m with
  | DialogManagerAndroid => "android"
  | DialogManagerWindows => "windows"
  | DialogManagerTizen => "tizen"
  end.

Definition constants_of (DMA DMW DMT : DialogModule.t) (m : NativeModule) : DialogModule.t :=
  match m with
  | DialogManagerAndroid => DMA
  | DialogManagerWindows => DMW
  | DialogManagerTizen => DMT
  end.

(** The config after the [if] that adds the entry of role [r]: the entry is
    added when the local of that role holds a button. *)
Definition with_role (m : NativeModule) (buttons : Nullable Buttons) (r : Role)
    (config : gmap string string) : gmap string string :=
  match assigned m buttons r with
  | Some b => <[role_key r := label b]> config
  | None => config
  end.

(** The six [console.log] calls the Tizen result callback makes before it
    compares the key. *)
Definition tizen_log_lines (DM : DialogModule.t) (buttonKey : JsPrim) : list Effect :=
  [ ConsoleLog (VPrim (PStr "-----------------alert----sss-------------"));
    ConsoleLog (VPrim buttonKey);
    ConsoleLog (VPrim (PStr "DialogModuleTizen:"));
    ConsoleLog (VPrim (DialogModule.buttonNeutral DM));
    ConsoleLog (VPrim (DialogModule.buttonNegative DM));
    ConsoleLog (VPrim (DialogModule.buttonPositive DM)) ].

(** * Properties *)

(** Case analysis on the buttons argument, far enough to run the slice and
    the pops. *)
Ltac by_buttons buttons :=
  destruct buttons as [ | | [ | ? [ | ? [ | ? [ | ? ? ] ] ] ] ].

Lemma slice_0 {A} (n : nat) (l : list A) : slice 0 n l = take n l.
Proof. unfold slice. by rewrite Nat.sub_0_r, drop_0. Qed.

Lemma pop_snoc {A} (l : list A) (x : A) : pop (l ++ [x]) = (Some x, l).
Proof. unfold pop. by rewrite last_snoc, removelast_last. Qed.

Lemma pop_nil {A} : pop (@nil A) = (None, []).
Proof. reflexivity. Qed.

(** The roles are filled from the end of the truncated list: the role at
    index [i] holds the [i]-th element counted from the end, when there is
    one. *)
Lemma assigned_from_the_end m (bs : Buttons) r :
  assigned m (Defined bs) r = reverse (take (max_buttons m) bs) !! role_index r.
Proof.
  destruct m, r; destruct bs as [ | a [ | b [ | c [ | d rest ] ] ] ]; reflexivity.
Qed.

(** With an absent buttons argument only the positive role is filled, by
    the default button. *)
Lemma assigned_absent m (buttons : Nullable Buttons) r :
  absent buttons ->
  assigned m buttons r = match r with Positive => Some ok_button | _ => None end.
Proof. intros [-> | ->]; destruct m, r; reflexivity. Qed.

(** Every wrapper makes exactly one native call, to its own module, and
    finishes normally. *)
Lemma adapter_one_call constants m title message buttons :
  exists c,
    adapter constants m title message buttons
    = ([ShowAlert m (sa_config c) (sa_errorCallback c) (sa_resultCallback c)], inr tt)
    /\ showAlert_calls (trace (adapter constants m title message buttons)) = [c]
    /\ sa_module c = m.
Proof.
  destruct m; cbv [adapter AlertAndroid.alert AlertWindows.alert AlertTizen.alert pop perform];
    (eexists (Build_ShowAlertCall _ _ _ _); split; [reflexivity | split; reflexivity]).
Qed.

(** The config carries title and message, and for each role the label of
    the button assigned to it, or nothing when none is. *)
Lemma config_lookup constants m title message buttons :
  exists c, configs (adapter constants m title message buttons) = [c]
    /\ c !! "title" = Some (or_else title EmptyString)
    /\ c !! "message" = Some (or_else message EmptyString)
    /\ forall r, c !! role_key r = label <$> assigned m buttons r.
Proof.
  destruct m; by_buttons buttons;
    (eexists; split; [reflexivity | split; [reflexivity | split; [reflexivity | ] ] ];
     intros []; reflexivity).
Qed.

(** ** The closures handed to the native module

    Each wrapper makes one [showAlert] call; its error callback warns with
    the [message] argument of the alert, and its result callback is the
    chain of comparisons of the source, over the buttons held by the roles. *)

Lemma android_call DM title message buttons :
  exists config,
    showAlert_calls (trace (AlertAndroid.alert DM title message buttons))
    = [ {| sa_module := DialogManagerAndroid;
           sa_config := config;
           sa_errorCallback := fun _ => console_warn (of_string message);
           sa_resultCallback := fun action buttonKey =>
             if negb (strict_eq action (DialogModule.buttonClicked DM)) then skip
             else if strict_eq buttonKey (DialogModule.buttonNeutral DM) then
               press (assigned DialogManagerAndroid buttons Neutral)
             else if strict_eq buttonKey (DialogModule.buttonNegative DM) then
               press (assigned DialogManagerAndroid buttons Negative)
             else if strict_eq buttonKey (DialogModule.buttonPositive DM) then
               press (assigned DialogManagerAndroid buttons Positive)
             else skip |} ].
Proof. eexists. reflexivity. Qed.

Lemma windows_call DM title message buttons :
  exists config,
    showAlert_calls (trace (AlertWindows.alert DM title message buttons))
    = [ {| sa_module := DialogManagerWindows;
           sa_config := config;
           sa_errorCallback := fun _ => console_warn (of_string message);
           sa_resultCallback := fun action buttonKey =>
             if negb (strict_eq action (DialogModule.buttonClicked DM)) then skip
             else if strict_eq buttonKey (DialogModule.buttonNegative DM) then
               press (assigned DialogManagerWindows buttons Negative)
             else if strict_eq buttonKey (DialogModule.buttonPositive DM) then
               press (assigned DialogManagerWindows buttons Positive)
             else skip |} ].
Proof. eexists. reflexivity. Qed.

(** The Tizen result callback also writes its log lines. *)
Lemma tizen_call DM title message buttons :
  exists config,
    showAlert_calls (trace (AlertTizen.alert DM title message buttons))
    = [ {| sa_module := DialogManagerTizen;
           sa_config := config;
           sa_errorCallback := fun _ => console_warn (of_string message);
           sa_resultCallback := fun action buttonKey =>
             if negb (strict_eq action (DialogModule.buttonClicked DM)) then skip
             else
               console_log (VPrim (PStr "-----------------alert----sss-------------"));;
               console_log (VPrim buttonKey);;
               console_log (VPrim (PStr "DialogModuleTizen:"));;
               console_log (VPrim (DialogModule.buttonNeutral DM));;
               console_log (VPrim (DialogModule.buttonNegative DM));;
               console_log (VPrim (DialogModule.buttonPositive DM));;
               if strict_eq buttonKey (DialogModule.buttonNeutral DM) then
                 press (assigned DialogManagerTizen buttons Neutral)
               else if strict_eq buttonKey (DialogModule.buttonNegative DM) then
                 press (assigned DialogManagerTizen buttons Negative)
               else if strict_eq buttonKey (DialogModule.buttonPositive DM) then
                 console_log (of_button (assigned DialogManagerTizen buttons Positive));;
                 press (assigned DialogManagerTizen buttons Positive)
               else skip |} ].
Proof. eexists. reflexivity. Qed.

Ltac case_key key :=
  repeat match goal with
  | |- context [strict_eq key ?b] => destruct (strict_eq key b)
  end.

Ltac case_press :=
  match goal with
  | |- context [press ?o] =>
      let b := fresh "b" in
      destruct o as [b | ]; [ | reflexivity ];
      unfold press; destruct (onPress b); reflexivity
  end.

Lemma result_callback_summary constants m title message buttons :
  exists c, showAlert_calls (trace (adapter constants m title message buttons)) = [c]
    /\ (forall err, sa_errorCallback c err = console_warn (of_string message))
    /\ (forall action key,
          action <> DialogModule.buttonClicked (constants m) ->
          sa_resultCallback c action key = skip)
    /\ (forall action key,
          (presses (trace (sa_resultCallback c action key)),
           completion (sa_resultCallback c action key))
          = summary m (constants m) (assigned m buttons) action key)
    /\ (m <> DialogManagerTizen -> forall action key,
          trace (sa_resultCallback c action key)
          = OnPress <$> presses (trace (sa_resultCallback c action key))).
Proof.
  destruct m; unfold adapter.
  - destruct (android_call (constants DialogManagerAndroid) title message buttons) as [cfg ->].
    eexists. split; [reflexivity | ]. split; [reflexivity | ].
    cbn [sa_resultCallback]. split; [ | split ].
    + intros action key Hne. unfold strict_eq. by rewrite bool_decide_eq_false_2.
    + intros action key. unfold summary, comparisons. cbn [List.find role_constant].
      destruct (strict_eq action _); cbn [negb]; [ | reflexivity ].
      case_key key; try reflexivity; case_press.
    + intros _ action key.
      destruct (strict_eq action _); cbn [negb]; [ | reflexivity ].
      case_key key; try reflexivity; case_press.
  - destruct (windows_call (constants DialogManagerWindows) title message buttons) as [cfg ->].
    eexists. split; [reflexivity | ]. split; [reflexivity | ].
    cbn [sa_resultCallback]. split; [ | split ].
    + intros action key Hne. unfold strict_eq. by rewrite bool_decide_eq_false_2.
    + intros action key. unfold summary, comparisons. cbn [List.find role_constant].
      destruct (strict_eq action _); cbn [negb]; [ | reflexivity ].
      case_key key; try reflexivity; case_press.
    + intros _ action key.
      destruct (strict_eq action _); cbn [negb]; [ | reflexivity ].
      case_key key; try reflexivity; case_press.
  - destruct (tizen_call (constants DialogManagerTizen) title message buttons) as [cfg ->].
    eexists. split; [reflexivity | ]. split; [reflexivity | ].
    cbn [sa_resultCallback]. split; [ | split ].
    + intros action key Hne. unfold strict_eq. by rewrite bool_decide_eq_false_2.
    + intros action key. unfold summary, comparisons. cbn [List.find role_constant].
      destruct (strict_eq action _); cbn [negb]; [ | reflexivity ].
      case_key key; try reflexivity; case_press.
    + intros Hm. by destruct Hm.
Qed.

(** ** Which role a key selects *)

Lemma find_role_some DM m key r :
  List.find (fun r => strict_eq key (role_constant DM r)) (comparisons m) = Some r ->
  key = role_constant DM r /\ In r (comparisons m).
Proof.
  intros Hfind. apply List.find_some in Hfind as [Hin Heq].
  split; [ | exact Hin ]. unfold strict_eq in Heq. by apply bool_decide_eq_true in Heq.
Qed.

Lemma find_role_none DM m key :
  (forall r, key <> role_constant DM r) ->
  List.find (fun r => strict_eq key (role_constant DM r)) (comparisons m) = None.
Proof.
  intros Hall. destruct (List.find _ _) as [r | ] eqn:Hfind; [ | reflexivity ].
  apply find_role_some in Hfind as [Heq _]. by destruct (Hall r).
Qed.

Lemma distinct_roles_ne DM :
  distinct_roles DM ->
  role_constant DM Positive <> role_constant DM Negative
  /\ role_constant DM Positive <> role_constant DM Neutral
  /\ role_constant DM Negative <> role_constant DM Neutral.
Proof.
  unfold distinct_roles. rewrite !NoDup_cons, !not_elem_of_cons.
  intros ((Hpn & Hpu & _) & (Hnu & _) & _). auto.
Qed.

Lemma find_role_distinct DM m key r :
  distinct_roles DM -> In r (comparisons m) -> key = role_constant DM r ->
  List.find (fun r => strict_eq key (role_constant DM r)) (comparisons m) = Some r.
Proof.
  intros Hd Hin ->. apply distinct_roles_ne in Hd as (Hpn & Hpu & Hnu).
  destruct m, r; cbn in Hin, Hpn, Hpu, Hnu |- *; unfold strict_eq;
    repeat case_bool_decide; first [ reflexivity | congruence | intuition discriminate ].
Qed.

Lemma assigned_in_comparisons m buttons r b :
  assigned m buttons r = Some b -> In r (comparisons m).
Proof. destruct m, r; cbn; first [ discriminate | tauto ]. Qed.

Lemma strict_eq_refl a : strict_eq a a = true.
Proof. unfold strict_eq. by apply bool_decide_eq_true. Qed.

(** The facade forwards to one wrapper or to iOS, or does nothing; none of
    these paths throws. *)
Lemma dispatcher_completes OS DMA DMW DMT title message buttons type :
  completion (Alert.alert OS DMA DMW DMT title message buttons type) = inr tt.
Proof.
  unfold Alert.alert.
  repeat match goal with
  | |- context [String.eqb OS ?s] => destruct (String.eqb OS s)
  end; try reflexivity.
  by destruct type.
Qed.

Section Wrappers.
Variable constants : NativeModule -> DialogModule.t.

(** C1: on a 3-slot wrapper (Android, Tizen) roles are assigned from the end
    of the truncated list.  Given [A; B; C] the config has positive = C,
    negative = B, neutral = A; given [A; B] it has positive = B,
    negative = A and no neutral entry; for any buttons argument a role that
    was assigned no button has no entry; and the documented example call
    produces exactly the documented config. *)
Theorem C1_roles_from_the_end (m : NativeModule) (title message : Nullable string)
    (A B C : ButtonSpec) (buttons : Nullable Buttons)
    (Hslots : max_buttons m = 3) :
  (exists c, configs (adapter constants m title message (Defined [A; B; C])) = [c]
     /\ c !! "buttonPositive" = Some (label C)
     /\ c !! "buttonNegative" = Some (label B)
     /\ c !! "buttonNeutral" = Some (label A))
  /\ (exists c, configs (adapter constants m title message (Defined [A; B])) = [c]
     /\ c !! "buttonPositive" = Some (label B)
     /\ c !! "buttonNegative" = Some (label A)
     /\ c !! "buttonNeutral" = None)
  /\ (exists c, configs (adapter constants m title message buttons) = [c]
     /\ forall r, assigned m buttons r = None -> c !! role_key r = None)
  /\ configs (adapter constants m (Defined "Title") (Defined "Msg")
               (Defined [later_button; cancel_button; ok_button]))
     = [ list_to_map [("title", "Title"); ("message", "Msg"); ("buttonNeutral", "Later");
                      ("buttonNegative", "Cancel"); ("buttonPositive", "OK")] ].
Proof.
  split; [ | split; [ | split ] ].
  - destruct m; try discriminate Hslots;
      (eexists; split; [reflexivity | repeat split; reflexivity]).
  - destruct m; try discriminate Hslots;
      (eexists; split; [reflexivity | repeat split; reflexivity]).
  - destruct (config_lookup constants m title message buttons) as (c & Hc & _ & _ & Hr).
    exists c. split; [exact Hc | ]. intros r Hnone. by rewrite Hr, Hnone.
  - destruct m; try discriminate Hslots; reflexivity.
Qed.

(** C3, as the code has it: an empty button list is a supplied list, so no
    default is substituted and the config carries title and message only;
    the single default positive button labelled OK appears when the buttons
    argument is absent. *)
Theorem C3_empty_list_has_no_buttons (m : NativeModule) (title message : Nullable string) :
  configs (adapter constants m title message (Defined [])) = [base_config title message]
  /\ button_entries (base_config title message) = 0
  /\ configs (adapter constants m title message Undefined)
     = [<["buttonPositive" := "OK"]> (base_config title message)]
  /\ configs (adapter constants m title message Null)
     = [<["buttonPositive" := "OK"]> (base_config title message)]
  /\ button_entries (<["buttonPositive" := "OK"]> (base_config title message)) = 1.
Proof.
  repeat split; destruct m; reflexivity.
Qed.

(** C5: each wrapper truncates the supplied list to its maximum, 3 for
    Android and Tizen and 2 for Windows, keeping the earliest elements, and
    the config never carries more button entries than that maximum (one, for
    an absent buttons argument). *)
Theorem C5_truncates_to_platform_maximum :
  truncates_to (AlertAndroid.alert (constants DialogManagerAndroid)) 3
  /\ truncates_to (AlertWindows.alert (constants DialogManagerWindows)) 2
  /\ truncates_to (AlertTizen.alert (constants DialogManagerTizen)) 3
  /\ forall m title message buttons,
       exists c, configs (adapter constants m title message buttons) = [c]
         /\ button_entries c <= max_buttons m.
Proof.
  split; [ | split; [ | split ] ].
  - intros title message [ | a [ | b [ | c [ | d rest ] ] ] ];
      (eexists; split; [reflexivity | vm_compute; repeat split; lia]).
  - intros title message [ | a [ | b [ | c rest ] ] ];
      (eexists; split; [reflexivity | vm_compute; repeat split; lia]).
  - intros title message [ | a [ | b [ | c [ | d rest ] ] ] ];
      (eexists; split; [reflexivity | vm_compute; repeat split; lia]).
  - intros m title message buttons.
    destruct m; by_buttons buttons;
      (eexists; split; [reflexivity | vm_compute; lia]).
Qed.

(** C6: with title, message and buttons all absent, every wrapper sends
    exactly the config with title and message empty and the single positive
    button OK; no negative and no neutral entry is present. *)
Theorem C6_all_absent_gives_default_config (m : NativeModule)
    (title message : Nullable string) (buttons : Nullable Buttons)
    (Htitle : absent title) (Hmessage : absent message) (Hbuttons : absent buttons) :
  exists c, configs (adapter constants m title message buttons) = [c]
    /\ c = list_to_map [("title", EmptyString); ("message", EmptyString); ("buttonPositive", "OK")]
    /\ c !! "buttonNegative" = None
    /\ c !! "buttonNeutral" = None.
Proof.
  destruct Htitle as [-> | ->], Hmessage as [-> | ->], Hbuttons as [-> | ->], m;
    (eexists; split; [reflexivity | repeat split; reflexivity]).
Qed.

(** C10: a button assigned to a role whose text is omitted or empty still
    contributes its role to the config, with the empty string as label. *)
Theorem C10_missing_label_is_empty_string (m : NativeModule)
    (title message : Nullable string) (buttons : Nullable Buttons)
    (r : Role) (b : ButtonSpec)
    (Hassigned : assigned m buttons r = Some b)
    (Htext : text b = None \/ text b = Some EmptyString) :
  exists c, configs (adapter constants m title message buttons) = [c]
    /\ c !! role_key r = Some EmptyString.
Proof.
  destruct (config_lookup constants m title message buttons) as (c & Hc & _ & _ & Hr).
  exists c. split; [exact Hc | ].
  rewrite Hr, Hassigned. cbn. unfold label, text_or.
  by destruct Htext as [-> | ->].
Qed.

(** C2, evaluated on the code: when the native service reports the error
    [native failure] for an alert whose message is [Body], the error
    callback of every wrapper warns with [Body], the message of the alert,
    and not with the reported error; it does nothing else. *)
Theorem C2_error_callback_warns_with_alert_message (m : NativeModule) :
  (fun c => sa_errorCallback c "native failure")
    <$> showAlert_calls (trace (adapter constants m (Defined "Title") (Defined "Body") Undefined))
  = [ ([ConsoleWarn (VPrim (PStr "Body"))], inr tt) ].
Proof. destruct m; reflexivity. Qed.

(** C4, as the code has it: the dispatcher, the wrapper body and the error
    callback never throw, and the result callback does not throw when the action code is
    not the clicked constant or when every role the key names was assigned a
    button; in particular, when the role the key names holds a button
    without [onPress], no [onPress] is called and nothing is thrown (and
    outside the Tizen wrapper, which writes its log lines, nothing happens
    at all). *)
Theorem C4_no_exception_when_role_assigned (m : NativeModule)
    (title message : Nullable string) (buttons : Nullable Buttons)
    (action key : JsPrim)
    (Hd : distinct_roles (constants m))
    (Hkey : action <> DialogModule.buttonClicked (constants m)
            \/ forall r, key = role_constant (constants m) r ->
                         is_Some (assigned m buttons r)) :
  completion (adapter constants m title message buttons) = inr tt
  /\ (forall OS type,
        completion (Alert.alert OS (constants DialogManagerAndroid)
                      (constants DialogManagerWindows) (constants DialogManagerTizen)
                      title message buttons type) = inr tt)
  /\ exists c, showAlert_calls (trace (adapter constants m title message buttons)) = [c]
     /\ (forall err, completion (sa_errorCallback c err) = inr tt)
     /\ completion (sa_resultCallback c action key) = inr tt
     /\ forall r b,
          key = role_constant (constants m) r ->
          assigned m buttons r = Some b ->
          onPress b = None ->
          presses (trace (sa_resultCallback c action key)) = []
          /\ (m <> DialogManagerTizen -> trace (sa_resultCallback c action key) = []).
Proof.
  split.
  { destruct (adapter_one_call constants m title message buttons) as (c & -> & _). reflexivity. }
  split.
  { intros OS type. apply dispatcher_completes. }
  destruct (result_callback_summary constants m title message buttons)
    as (c & Hc & Herr & Hskip & Hsum & Honly).
  exists c. split; [exact Hc | ]. split; [ by intros err; rewrite Herr | ].
  specialize (Hsum action key).
  assert (Hp : presses (trace (sa_resultCallback c action key))
               = fst (summary m (constants m) (assigned m buttons) action key))
    by (by rewrite <- Hsum).
  assert (Hq : completion (sa_resultCallback c action key)
               = snd (summary m (constants m) (assigned m buttons) action key))
    by (by rewrite <- Hsum).
  split.
  - destruct Hkey as [Hne | Hall]; [ by rewrite Hskip | ].
    rewrite Hq. unfold summary.
    destruct (negb _); [ reflexivity | ].
    destruct (List.find _ _) as [r | ] eqn:Hfind; [ | reflexivity ].
    apply find_role_some in Hfind as [Heq _].
    destruct (Hall r Heq) as [b ->]. reflexivity.
  - intros r b Heq Hb Hnone.
    assert (Hnil : presses (trace (sa_resultCallback c action key)) = []).
    { rewrite Hp. unfold summary.
      destruct (negb _); [ reflexivity | ].
      rewrite (find_role_distinct _ m key r Hd (assigned_in_comparisons _ _ _ _ Hb) Heq).
      by rewrite Hb, Hnone. }
    split; [ exact Hnil | ].
    intros Hm. by rewrite (Honly Hm), Hnil.
Qed.

(** C7: the result callback of every wrapper calls an [onPress] only when
    the action code is the clicked constant and the role key is the constant
    of a role that was assigned a button.  If the action code is not the
    clicked constant, or the key is none of the role constants, no [onPress]
    is called; when both match and the button of that role has an [onPress],
    exactly that one is called. *)
Theorem C7_onPress_only_for_clicked_assigned_role (m : NativeModule)
    (title message : Nullable string) (buttons : Nullable Buttons)
    (Hd : distinct_roles (constants m)) :
  exists c, showAlert_calls (trace (adapter constants m title message buttons)) = [c]
    /\ forall action key,
       (action <> DialogModule.buttonClicked (constants m) ->
          presses (trace (sa_resultCallback c action key)) = [])
       /\ ((forall r, key <> role_constant (constants m) r) ->
          presses (trace (sa_resultCallback c action key)) = [])
       /\ (forall r b f,
          action = DialogModule.buttonClicked (constants m) ->
          key = role_constant (constants m) r ->
          assigned m buttons r = Some b ->
          onPress b = Some f ->
          presses (trace (sa_resultCallback c action key)) = [f])
       /\ (forall f,
          In f (presses (trace (sa_resultCallback c action key))) ->
          action = DialogModule.buttonClicked (constants m)
          /\ exists r b, key = role_constant (constants m) r
               /\ assigned m buttons r = Some b /\ onPress b = Some f).
Proof.
  destruct (result_callback_summary constants m title message buttons)
    as (c & Hc & _ & Hskip & Hsum & _).
  exists c. split; [exact Hc | ]. intros action key.
  specialize (Hsum action key).
  assert (Hp : presses (trace (sa_resultCallback c action key))
               = fst (summary m (constants m) (assigned m buttons) action key))
    by (by rewrite <- Hsum).
  rewrite Hp. clear Hp Hsum. unfold summary.
  split; [ | split; [ | split ] ].
  - intros Hne. unfold strict_eq. by rewrite bool_decide_eq_false_2.
  - intros Hall. destruct (negb _); [ reflexivity | ].
    by rewrite (find_role_none _ m key Hall).
  - intros r b f -> Heq Hb Hf. rewrite strict_eq_refl. cbn [negb].
    rewrite (find_role_distinct _ m key r Hd (assigned_in_comparisons _ _ _ _ Hb) Heq).
    by rewrite Hb, Hf.
  - intros f Hin. unfold strict_eq in Hin at 1.
    case_bool_decide as Hact; cbn [negb] in Hin; [ | by destruct Hin ].
    split; [ exact Hact | ].
    destruct (List.find _ _) as [r | ] eqn:Hfind; [ | by destruct Hin ].
    apply find_role_some in Hfind as [Heq _].
    destruct (assigned m buttons r) as [b | ] eqn:Hb; [ | by destruct Hin ].
    destruct (onPress b) as [g | ] eqn:Hg; [ | by destruct Hin ].
    destruct Hin as [-> | []]. by exists r, b.
Qed.

End Wrappers.

(** ** The dispatcher *)

(** C8: when [Platform.OS] is none of ios, android, windows and tizen, the
    dispatcher performs no effect at all (no wrapper runs, no native call is
    made, nothing is logged) and completes normally with no value. *)
Theorem C8_unrecognized_platform_does_nothing (OS : string)
    (DMA DMW DMT : DialogModule.t)
    (title message : Nullable string) (buttons : Nullable Buttons)
    (type : Nullable AlertType)
    (Hios : OS <> "ios") (Handroid : OS <> "android")
    (Hwindows : OS <> "windows") (Htizen : OS <> "tizen") :
  trace (Alert.alert OS DMA DMW DMT title message buttons type) = []
  /\ completion (Alert.alert OS DMA DMW DMT title message buttons type) = inr tt.
Proof.
  unfold Alert.alert.
  apply String.eqb_neq in Hios, Handroid, Hwindows, Htizen.
  rewrite Hios, Handroid, Hwindows, Htizen. split; reflexivity.
Qed.

(** C9: on iOS, a fourth argument that is not [undefined] makes the
    dispatcher log the deprecation warning and then call [AlertIOS.alert]
    with title, message, buttons and that value unchanged; when the fourth
    argument is [undefined] it calls [AlertIOS.alert] with title, message
    and buttons only, and logs nothing. *)
Theorem C9_ios_forwards_legacy_type (DMA DMW DMT : DialogModule.t)
    (title message : Nullable string) (buttons : Nullable Buttons)
    (type : Nullable AlertType)
    (Hdefined : type <> Undefined) :
  Alert.alert "ios" DMA DMW DMT title message buttons type
  = ([ ConsoleWarn (VPrim (PStr deprecation_warning));
       AlertIOS_alert title message buttons (Some type) ], inr tt)
  /\ Alert.alert "ios" DMA DMW DMT title message buttons Undefined
    = ([ AlertIOS_alert title message buttons None ], inr tt).
Proof.
  split; [ | reflexivity ].
  destruct type; [ by destruct Hdefined | reflexivity | reflexivity ].
Qed.

(** ** Concrete runs *)

(** The documented call [alert(null)] on Windows, through the dispatcher. *)
Example alert_null_on_windows :
  configs (Alert.alert "windows" sample_constants sample_constants sample_constants
             Null Undefined Undefined Undefined)
  = [ list_to_map [("title", EmptyString); ("message", EmptyString); ("buttonPositive", "OK")] ].
Proof. reflexivity. Qed.

(** The Windows wrapper keeps the first two of three buttons. *)
Example windows_keeps_first_two :
  configs (AlertWindows.alert sample_constants (Defined "Title") (Defined "Msg")
             (Defined [later_button; cancel_button; ok_button]))
  = [ list_to_map [("title", "Title"); ("message", "Msg");
                   ("buttonNegative", "Later"); ("buttonPositive", "Cancel")] ].
Proof. reflexivity. Qed.

(** The warning of the dispatcher is 107 characters long and has its two
    double quotes at offsets 25 and 30. *)
Example deprecation_warning_shape :
  String.length deprecation_warning = 107
  /\ String.get 25 deprecation_warning = Some (ascii_of_nat 34)
  /\ String.get 30 deprecation_warning = Some (ascii_of_nat 34).
Proof. repeat split; reflexivity. Qed.

(** C1 on the documented example, for the Tizen wrapper. *)
Lemma C1_roles_from_the_end_witness :
  max_buttons DialogManagerTizen = 3
  /\ exists c,
       configs (adapter sample DialogManagerTizen (Defined "Title") (Defined "Msg")
                  (Defined [later_button; cancel_button; ok_button])) = [c]
       /\ c !! "buttonPositive" = Some "OK"
       /\ c !! "buttonNegative" = Some "Cancel"
       /\ c !! "buttonNeutral" = Some "Later".
Proof.
  split; [ reflexivity | ].
  exact (proj1 (C1_roles_from_the_end sample DialogManagerTizen
                  (Defined "Title") (Defined "Msg")
                  later_button cancel_button ok_button Undefined eq_refl)).
Defined.

(** C3 fails for the empty list: the Android wrapper sends a config without
    a positive button. *)
Lemma C3_empty_list_counterexample :
  ~ exists c,
      configs (adapter sample DialogManagerAndroid (Defined "Title") (Defined "Msg")
                 (Defined [])) = [c]
      /\ c !! "buttonPositive" = Some "OK".
Proof.
  intros (c & Hc & Hpositive). injection Hc as <-. discriminate Hpositive.
Qed.

(** C4 fails when the key names a role that holds no button: with the single
    button OK, the neutral key makes the Android result callback throw. *)
Lemma C4_unassigned_role_counterexample :
  (fun c => completion (sa_resultCallback c (PStr "buttonClicked") (PNum (-3))))
    <$> showAlert_calls (trace (adapter sample DialogManagerAndroid
                                  (Defined "Title") (Defined "Msg") (Defined [ok_button])))
  = [ inl TypeError ].
Proof. reflexivity. Qed.

(** C4 on the single button OK, which has no [onPress]: the positive key
    does nothing at all. *)
Lemma C4_no_exception_when_role_assigned_witness :
  distinct_roles (sample DialogManagerAndroid)
  /\ (forall r, PNum (-1) = role_constant (sample DialogManagerAndroid) r ->
                is_Some (assigned DialogManagerAndroid (Defined [ok_button]) r))
  /\ exists c,
       showAlert_calls (trace (adapter sample DialogManagerAndroid
                                 (Defined "Title") (Defined "Msg") (Defined [ok_button]))) = [c]
       /\ completion (sa_resultCallback c (PStr "buttonClicked") (PNum (-1))) = inr tt
       /\ trace (sa_resultCallback c (PStr "buttonClicked") (PNum (-1))) = [].
Proof.
  assert (Hd : distinct_roles (sample DialogManagerAndroid)) by compute_done.
  assert (Hk : forall r, PNum (-1) = role_constant (sample DialogManagerAndroid) r ->
                         is_Some (assigned DialogManagerAndroid (Defined [ok_button]) r)).
  { intros [] Heq; [ by eexists | discriminate Heq | discriminate Heq ]. }
  split; [ exact Hd | ]. split; [ exact Hk | ].
  destruct (C4_no_exception_when_role_assigned sample DialogManagerAndroid
              (Defined "Title") (Defined "Msg") (Defined [ok_button])
              (PStr "buttonClicked") (PNum (-1)) Hd (or_intror Hk))
    as (_ & _ & c & Hc & _ & Hcompletion & Hsilent).
  exists c. split; [ exact Hc | ]. split; [ exact Hcompletion | ].
  apply (Hsilent Positive ok_button eq_refl eq_refl eq_refl). discriminate.
Defined.

(** C6 on the documented call [alert(null)] for the Windows wrapper. *)
Lemma C6_all_absent_gives_default_config_witness :
  absent (@Null string) /\ absent (@Undefined string) /\ absent (@Undefined Buttons)
  /\ exists c,
       configs (adapter sample DialogManagerWindows Null Undefined Undefined) = [c]
       /\ c = list_to_map [("title", EmptyString); ("message", EmptyString);
                           ("buttonPositive", "OK")]
       /\ c !! "buttonNegative" = None
       /\ c !! "buttonNeutral" = None.
Proof.
  split; [ right; reflexivity | ]. split; [ left; reflexivity | ].
  split; [ left; reflexivity | ].
  exact (C6_all_absent_gives_default_config sample DialogManagerWindows
           Null Undefined Undefined
           (or_intror eq_refl) (or_introl eq_refl) (or_introl eq_refl)).
Defined.

(** C7 on three buttons with [onPress] 1, 2 and 3 for the Tizen wrapper:
    the negative key calls 2, and a dismissal calls nothing. *)
Lemma C7_onPress_only_for_clicked_assigned_role_witness :
  distinct_roles (sample DialogManagerTizen)
  /\ exists c,
       showAlert_calls
         (trace (adapter sample DialogManagerTizen (Defined "Title") (Defined "Msg")
                   (Defined [with_onPress later_button 1; with_onPress cancel_button 2;
                             with_onPress ok_button 3]))) = [c]
       /\ presses (trace (sa_resultCallback c (PStr "buttonClicked") (PNum (-2)))) = [2]
       /\ presses (trace (sa_resultCallback c (PStr "dismissed") (PNum (-2)))) = [].
Proof.
  assert (Hd : distinct_roles (sample DialogManagerTizen)) by compute_done.
  split; [ exact Hd | ].
  destruct (C7_onPress_only_for_clicked_assigned_role sample DialogManagerTizen
              (Defined "Title") (Defined "Msg")
              (Defined [with_onPress later_button 1; with_onPress cancel_button 2;
                        with_onPress ok_button 3]) Hd)
    as (c & Hc & Hcallback).
  exists c. split; [ exact Hc | ]. split.
  - destruct (Hcallback (PStr "buttonClicked") (PNum (-2))) as (_ & _ & Hpress & _).
    exact (Hpress Negative (with_onPress cancel_button 2) 2 eq_refl eq_refl eq_refl eq_refl).
  - destruct (Hcallback (PStr "dismissed") (PNum (-2))) as (Hdismissed & _).
    apply Hdismissed. discriminate.
Defined.

(** C8 on the platform [web]. *)
Lemma C8_unrecognized_platform_does_nothing_witness :
  "web" <> "ios" /\ "web" <> "android" /\ "web" <> "windows" /\ "web" <> "tizen"
  /\ trace (Alert.alert "web" sample_constants sample_constants sample_constants
              (Defined "Title") (Defined "Msg") (Defined [ok_button]) Undefined) = []
  /\ completion (Alert.alert "web" sample_constants sample_constants sample_constants
                   (Defined "Title") (Defined "Msg") (Defined [ok_button]) Undefined) = inr tt.
Proof.
  assert (H1 : "web" <> "ios") by discriminate.
  assert (H2 : "web" <> "android") by discriminate.
  assert (H3 : "web" <> "windows") by discriminate.
  assert (H4 : "web" <> "tizen") by discriminate.
  repeat (split; [ assumption | ]).
  exact (C8_unrecognized_platform_does_nothing "web"
           sample_constants sample_constants sample_constants
           (Defined "Title") (Defined "Msg") (Defined [ok_button]) Undefined H1 H2 H3 H4).
Defined.

(** C9 on the legacy type [plain-text]. *)
Lemma C9_ios_forwards_legacy_type_witness :
  Defined "plain-text" <> @Undefined AlertType
  /\ Alert.alert "ios" sample_constants sample_constants sample_constants
       (Defined "Title") (Defined "Msg") (Defined [ok_button]) (Defined "plain-text")
     = ([ ConsoleWarn (VPrim (PStr deprecation_warning));
          AlertIOS_alert (Defined "Title") (Defined "Msg") (Defined [ok_button])
            (Some (Defined "plain-text")) ], inr tt).
Proof.
  assert (H : Defined "plain-text" <> @Undefined AlertType) by discriminate.
  split; [ exact H | ].
  exact (proj1 (C9_ios_forwards_legacy_type sample_constants sample_constants sample_constants
                  (Defined "Title") (Defined "Msg") (Defined [ok_button])
                  (Defined "plain-text") H)).
Defined.

(** C10 on a single button without text, for the Windows wrapper. *)
Lemma C10_missing_label_is_empty_string_witness :
  assigned DialogManagerWindows (Defined [unlabelled_button]) Positive = Some unlabelled_button
  /\ (text unlabelled_button = None \/ text unlabelled_button = Some EmptyString)
  /\ exists c,
       configs (adapter sample DialogManagerWindows (Defined "Title") (Defined "Msg")
                  (Defined [unlabelled_button])) = [c]
       /\ c !! "buttonPositive" = Some EmptyString.
Proof.
  split; [ reflexivity | ]. split; [ left; reflexivity | ].
  exact (C10_missing_label_is_empty_string sample DialogManagerWindows
           (Defined "Title") (Defined "Msg") (Defined [unlabelled_button])
           Positive unlabelled_button eq_refl (or_introl eq_refl)).
Defined.

(** * Further properties of the wrappers and the dispatcher *)

(** The config in closed form: the base config, then the entries of the
    roles that hold a button, added in the order neutral, negative,
    positive. *)
Lemma config_closed_form constants m title message buttons :
  configs (adapter constants m title message buttons)
  = [ with_role m buttons Positive
        (with_role m buttons Negative
           (with_role m buttons Neutral (base_config title message))) ].
Proof. destruct m; reflexivity. Qed.

Lemma role_key_inj r r' : role_key r = role_key r' -> r = r'.
Proof. destruct r, r'; first [ reflexivity | discriminate ]. Qed.

Lemma with_role_other m buttons r (c : gmap string string) k :
  k <> role_key r -> with_role m buttons r c !! k = c !! k.
Proof.
  intros Hne. unfold with_role. destruct (assigned m buttons r); [ | reflexivity ].
  by apply lookup_insert_ne.
Qed.

Lemma assigned_kept m (bs : Buttons) r b :
  assigned m (Defined bs) r = Some b -> In b (take (max_buttons m) bs).
Proof.
  rewrite assigned_from_the_end. intros Hlookup.
  apply list_elem_of_In. rewrite <- elem_of_reverse.
  by apply list_elem_of_lookup_2 in Hlookup.
Qed.

Lemma summary_fst constants m title message buttons :
  exists c, showAlert_calls (trace (adapter constants m title message buttons)) = [c]
    /\ forall action key,
         presses (trace (sa_resultCallback c action key))
         = fst (summary m (constants m) (assigned m buttons) action key)
         /\ completion (sa_resultCallback c action key)
           = snd (summary m (constants m) (assigned m buttons) action key).
Proof.
  destruct (result_callback_summary constants m title message buttons)
    as (c & Hc & _ & _ & Hsum & _).
  exists c. split; [ exact Hc | ]. intros action key.
  specialize (Hsum action key). split; by rewrite <- Hsum.
Qed.

Section Further.
Variable constants : NativeModule -> DialogModule.t.

(** X1: a wrapper does exactly one thing: it calls [showAlert] of its own
    native module once.  It writes nothing to the console, calls no
    [onPress] itself, and returns normally. *)
Theorem wrapper_makes_one_native_call (m : NativeModule)
    (title message : Nullable string) (buttons : Nullable Buttons) :
  exists config errorCallback resultCallback,
    adapter constants m title message buttons
    = ([ShowAlert m config errorCallback resultCallback], inr tt).
Proof.
  destruct (adapter_one_call constants m title message buttons) as (c & Hc & _).
  by exists (sa_config c), (sa_errorCallback c), (sa_resultCallback c).
Qed.

(** X2: the config depends on the buttons only through their texts: two
    lists with the same texts give the same config, whatever the [onPress]
    and [style] of the buttons and whatever the native constants. *)
Theorem config_depends_on_texts_only (constants' : NativeModule -> DialogModule.t)
    (m : NativeModule) (title message : Nullable string) (bs bs' : Buttons)
    (Htexts : text <$> bs = text <$> bs') :
  configs (adapter constants m title message (Defined bs))
  = configs (adapter constants' m title message (Defined bs')).
Proof.
  rewrite !config_closed_form. f_equal.
  assert (Hlabel : forall r,
            label <$> assigned m (Defined bs) r = label <$> assigned m (Defined bs') r).
  { intros r. rewrite !assigned_from_the_end, <- !list_lookup_fmap, !fmap_reverse, !fmap_take.
    replace (label <$> bs) with (label <$> bs'); [ reflexivity | ].
    assert (Hl : forall l : Buttons,
              label <$> l
              = (fun o : option string =>
                   match o with Some s => if truthy s then s else EmptyString | None => EmptyString end)
                <$> (text <$> l)).
    { intros l. rewrite <- list_fmap_compose. reflexivity. }
    by rewrite (Hl bs), (Hl bs'), Htexts. }
  unfold with_role.
  pose proof (Hlabel Positive) as Hp. pose proof (Hlabel Negative) as Hn.
  pose proof (Hlabel Neutral) as Hu.
  destruct (assigned m (Defined bs) Positive), (assigned m (Defined bs') Positive);
    try discriminate Hp;
  destruct (assigned m (Defined bs) Negative), (assigned m (Defined bs') Negative);
    try discriminate Hn;
  destruct (assigned m (Defined bs) Neutral), (assigned m (Defined bs') Neutral);
    try discriminate Hu;
  cbn in Hp, Hn, Hu; simplify_eq; congruence.
Qed.

(** X3: the keys of a config are title, message and the keys of the roles
    that hold a button, and no others. *)
Theorem config_keys (m : NativeModule)
    (title message : Nullable string) (buttons : Nullable Buttons) :
  exists c, configs (adapter constants m title message buttons) = [c]
    /\ forall k,
         is_Some (c !! k)
         <-> k = "title" \/ k = "message"
             \/ exists r, k = role_key r /\ is_Some (assigned m buttons r).
Proof.
  destruct (config_lookup constants m title message buttons) as (c & Hc & Ht & Hm & Hr).
  exists c. split; [ exact Hc | ]. intros k. split.
  - intros Hsome.
    destruct (decide (k = "title")) as [ | Hnt ]; [ by left | ].
    destruct (decide (k = "message")) as [ | Hnm ]; [ by right; left | ].
    right; right.
    assert (Hrole : forall r, k = role_key r ->
              exists r, k = role_key r /\ is_Some (assigned m buttons r)).
    { intros r ->. exists r. split; [ reflexivity | ]. rewrite Hr in Hsome.
      by apply fmap_is_Some in Hsome. }
    destruct (decide (k = role_key Positive)) as [ Hkey | Hnp ]; [ by apply Hrole in Hkey | ].
    destruct (decide (k = role_key Negative)) as [ Hkey | Hnn ]; [ by apply Hrole in Hkey | ].
    destruct (decide (k = role_key Neutral)) as [ Hkey | Hnu ]; [ by apply Hrole in Hkey | ].
    exfalso. rewrite config_closed_form in Hc. injection Hc as <-.
    rewrite !with_role_other in Hsome by assumption.
    unfold base_config in Hsome.
    rewrite lookup_insert_ne, lookup_singleton_ne in Hsome by done.
    by destruct Hsome.
  - intros [ -> | [ -> | (r & -> & Hsome) ] ].
    + by rewrite Ht.
    + by rewrite Hm.
    + rewrite Hr. by apply fmap_is_Some.
Qed.

(** X4: a title, a message and a button text that are not empty reach the
    config unchanged. *)
Theorem nonempty_strings_pass_through (m : NativeModule)
    (title message label_text : string) (buttons : Nullable Buttons)
    (r : Role) (b : ButtonSpec)
    (Htitle : title <> EmptyString) (Hmessage : message <> EmptyString)
    (Hlabel : label_text <> EmptyString)
    (Hassigned : assigned m buttons r = Some b)
    (Htext : text b = Some label_text) :
  exists c, configs (adapter constants m (Defined title) (Defined message) buttons) = [c]
    /\ c !! "title" = Some title
    /\ c !! "message" = Some message
    /\ c !! role_key r = Some label_text.
Proof.
  destruct (config_lookup constants m (Defined title) (Defined message) buttons)
    as (c & Hc & Ht & Hm & Hr).
  exists c. split; [ exact Hc | ].
  rewrite Ht, Hm, Hr, Hassigned. cbn. unfold label, text_or. rewrite Htext.
  by destruct title, message, label_text.
Qed.

(** X5: buttons after the maximum have no effect at all: the config, the
    error callback and the result callback are those of the alert for the
    truncated list. *)
Theorem extra_buttons_have_no_effect (m : NativeModule)
    (title message : Nullable string) (bs : Buttons) :
  exists c c',
    showAlert_calls (trace (adapter constants m title message (Defined bs))) = [c]
    /\ showAlert_calls
         (trace (adapter constants m title message (Defined (take (max_buttons m) bs)))) = [c']
    /\ sa_config c = sa_config c'
    /\ (forall err, sa_errorCallback c err = sa_errorCallback c' err)
    /\ forall action key, sa_resultCallback c action key = sa_resultCallback c' action key.
Proof.
  destruct m; destruct bs as [ | a [ | b [ | c [ | d rest ] ] ] ];
    (eexists; eexists; split; [ reflexivity | split; [ reflexivity | ] ];
     split; [ reflexivity | split; reflexivity ]).
Qed.

(** X6: the error callback of every wrapper, whatever error it is given,
    performs one [console.warn] and nothing else; as the code is written the
    value it warns with is the [message] argument of the alert.  It calls no
    [onPress], makes no further native call and does not throw. *)
Theorem error_callback_warns_once (m : NativeModule)
    (title message : Nullable string) (buttons : Nullable Buttons) :
  exists c, showAlert_calls (trace (adapter constants m title message buttons)) = [c]
    /\ forall err, sa_errorCallback c err = ([ConsoleWarn (of_string message)], inr tt).
Proof.
  destruct (result_callback_summary constants m title message buttons)
    as (c & Hc & Herr & _).
  exists c. split; [ exact Hc | ]. intros err. by rewrite Herr.
Qed.

(** X7: when the action code is not the clicked constant, the result
    callback has no effect at all; the Tizen wrapper, too, returns before
    its log lines. *)
Theorem result_callback_ignores_other_actions (m : NativeModule)
    (title message : Nullable string) (buttons : Nullable Buttons)
    (action key : JsPrim)
    (Haction : action <> DialogModule.buttonClicked (constants m)) :
  exists c, showAlert_calls (trace (adapter constants m title message buttons)) = [c]
    /\ sa_resultCallback c action key = ([], inr tt).
Proof.
  destruct (result_callback_summary constants m title message buttons)
    as (c & Hc & _ & Hskip & _).
  exists c. split; [ exact Hc | ]. by rewrite Hskip.
Qed.

(** X8: one call of a result callback calls at most one [onPress], whatever
    the native constants are. *)
Theorem result_callback_presses_at_most_once (m : NativeModule)
    (title message : Nullable string) (buttons : Nullable Buttons) :
  exists c, showAlert_calls (trace (adapter constants m title message buttons)) = [c]
    /\ forall action key,
         length (presses (trace (sa_resultCallback c action key))) <= 1.
Proof.
  destruct (summary_fst constants m title message buttons) as (c & Hc & Hsum).
  exists c. split; [ exact Hc | ]. intros action key.
  destruct (Hsum action key) as [-> _]. unfold summary.
  destruct (negb _); [ cbn; lia | ].
  destruct (List.find _ _) as [r | ]; [ | cbn; lia ].
  destruct (assigned m buttons r) as [b | ]; [ | cbn; lia ].
  destruct (onPress b); cbn; lia.
Qed.

(** X9: every [onPress] a result callback calls belongs to one of the
    buttons that were kept; the [onPress] of a button beyond the maximum is
    never called, whatever action code and key the native side passes. *)
Theorem dropped_buttons_are_never_pressed (m : NativeModule)
    (title message : Nullable string) (bs : Buttons) :
  exists c, showAlert_calls (trace (adapter constants m title message (Defined bs))) = [c]
    /\ forall action key,
         Forall (fun f => In f (omap onPress (take (max_buttons m) bs)))
                (presses (trace (sa_resultCallback c action key))).
Proof.
  destruct (summary_fst constants m title message (Defined bs)) as (c & Hc & Hsum).
  exists c. split; [ exact Hc | ]. intros action key.
  destruct (Hsum action key) as [-> _]. unfold summary.
  destruct (negb _); [ constructor | ].
  destruct (List.find _ _) as [r | ]; [ | constructor ].
  destruct (assigned m (Defined bs) r) as [b | ] eqn:Hb; [ | constructor ].
  destruct (onPress b) as [f | ] eqn:Hf; [ | constructor ].
  constructor; [ | constructor ].
  apply list_elem_of_In, list_elem_of_omap. exists b.
  split; [ | exact Hf ]. by apply list_elem_of_In, assigned_kept with r.
Qed.

(** X10: with distinct role constants, a result callback throws exactly when
    the action code is the clicked constant and the key is the constant of a
    role the wrapper compares with and that holds no button; otherwise it
    returns normally. *)
Theorem result_callback_throws_iff (m : NativeModule)
    (title message : Nullable string) (buttons : Nullable Buttons)
    (Hd : distinct_roles (constants m)) :
  exists c, showAlert_calls (trace (adapter constants m title message buttons)) = [c]
    /\ forall action key,
         (completion (sa_resultCallback c action key) = inl TypeError
          <-> action = DialogModule.buttonClicked (constants m)
              /\ exists r, In r (comparisons m)
                   /\ key = role_constant (constants m) r
                   /\ assigned m buttons r = None)
         /\ (completion (sa_resultCallback c action key) = inl TypeError
             \/ completion (sa_resultCallback c action key) = inr tt).
Proof.
  destruct (summary_fst constants m title message buttons) as (c & Hc & Hsum).
  exists c. split; [ exact Hc | ]. intros action key.
  destruct (Hsum action key) as [_ ->]. split.
  - unfold summary, strict_eq at 1. split.
    + case_bool_decide as Hact; cbn [negb]; [ | discriminate ].
      destruct (List.find _ _) as [r | ] eqn:Hfind; [ | discriminate ].
      apply find_role_some in Hfind as [Heq Hin].
      destruct (assigned m buttons r) as [b | ] eqn:Hb; [ discriminate | ].
      intros _. split; [ exact Hact | ]. by exists r.
    + intros (-> & r & Hin & Heq & Hnone).
      rewrite bool_decide_eq_true_2 by reflexivity. cbn [negb].
      by rewrite (find_role_distinct _ m key r Hd Hin Heq), Hnone.
  - unfold summary. destruct (negb _); [ by right | ].
    destruct (List.find _ _) as [r | ]; [ | by right ].
    destruct (assigned m buttons r); [ by right | by left ].
Qed.

(** X11: the Windows result callback does not know the neutral key: when
    the neutral constant differs from the other two, a click reported with
    it has no effect and does not throw. *)
Theorem windows_ignores_neutral_key
    (title message : Nullable string) (buttons : Nullable Buttons)
    (Hd : distinct_roles (constants DialogManagerWindows)) :
  exists c,
    showAlert_calls (trace (adapter constants DialogManagerWindows title message buttons)) = [c]
    /\ sa_resultCallback c (DialogModule.buttonClicked (constants DialogManagerWindows))
         (DialogModule.buttonNeutral (constants DialogManagerWindows))
       = ([], inr tt).
Proof.
  apply distinct_roles_ne in Hd as (_ & Hpu & Hnu). cbn in Hpu, Hnu.
  destruct (windows_call (constants DialogManagerWindows) title message buttons) as [cfg Hc].
  eexists. split; [ exact Hc | ]. cbn [sa_resultCallback].
  rewrite strict_eq_refl. cbn [negb]. unfold strict_eq.
  rewrite !bool_decide_eq_false_2 by congruence. reflexivity.
Qed.

(** X12: the result callbacks of the Android and Windows wrappers never
    write to the console and make no native call: their effects are calls of
    [onPress] only. *)
Theorem result_callback_only_presses (m : NativeModule)
    (title message : Nullable string) (buttons : Nullable Buttons)
    (Hm : m <> DialogManagerTizen) :
  exists c, showAlert_calls (trace (adapter constants m title message buttons)) = [c]
    /\ forall action key,
         trace (sa_resultCallback c action key)
         = OnPress <$> presses (trace (sa_resultCallback c action key)).
Proof.
  destruct (result_callback_summary constants m title message buttons)
    as (c & Hc & _ & _ & _ & Honly).
  exists c. split; [ exact Hc | ]. exact (Honly Hm).
Qed.

(** X13: on a click, the Tizen result callback first writes its six log
    lines (a banner, the key it was given, a header and the three role
    constants), whatever the key is and before anything can throw. *)
Theorem tizen_result_callback_logs_first
    (title message : Nullable string) (buttons : Nullable Buttons) :
  exists c,
    showAlert_calls (trace (adapter constants DialogManagerTizen title message buttons)) = [c]
    /\ forall key,
         take 6 (trace (sa_resultCallback c
                          (DialogModule.buttonClicked (constants DialogManagerTizen)) key))
         = tizen_log_lines (constants DialogManagerTizen) key.
Proof.
  destruct (tizen_call (constants DialogManagerTizen) title message buttons) as [cfg Hc].
  eexists. split; [ exact Hc | ]. intros key. cbn [sa_resultCallback].
  rewrite strict_eq_refl. cbn [negb].
  case_key key; try reflexivity;
    match goal with
    | |- context [press ?o] =>
        destruct o as [ b | ]; unfold press; [ destruct (onPress b) | ]; reflexivity
    end.
Qed.

(** X14: with an absent buttons argument and distinct role constants, a
    click on the positive button, the default OK, calls nothing and does not
    throw: the default button has no [onPress]. *)
Theorem default_button_press_calls_nothing (m : NativeModule)
    (title message : Nullable string) (buttons : Nullable Buttons)
    (Hd : distinct_roles (constants m))
    (Habsent : absent buttons) :
  exists c, showAlert_calls (trace (adapter constants m title message buttons)) = [c]
    /\ presses (trace (sa_resultCallback c (DialogModule.buttonClicked (constants m))
                         (DialogModule.buttonPositive (constants m)))) = []
    /\ completion (sa_resultCallback c (DialogModule.buttonClicked (constants m))
                     (DialogModule.buttonPositive (constants m))) = inr tt.
Proof.
  destruct (summary_fst constants m title message buttons) as (c & Hc & Hsum).
  exists c. split; [ exact Hc | ].
  destruct (Hsum (DialogModule.buttonClicked (constants m))
                 (DialogModule.buttonPositive (constants m))) as [-> ->].
  unfold summary. rewrite strict_eq_refl. cbn [negb].
  rewrite (find_role_distinct _ m _ Positive Hd); [ | destruct m; cbn; tauto | reflexivity ].
  rewrite (assigned_absent m buttons Positive Habsent). split; reflexivity.
Qed.

End Further.

(** X15: off iOS the fourth argument is ignored: the dispatcher behaves the
    same for every value of it, writes no deprecation warning and does not
    call [AlertIOS].  It is the wrapper of the platform, run with the
    constants of that platform's native module, when the platform is
    android, windows or tizen, and does nothing otherwise. *)
Theorem dispatcher_off_ios (OS : string) (DMA DMW DMT : DialogModule.t)
    (title message : Nullable string) (buttons : Nullable Buttons)
    (type : Nullable AlertType)
    (Hos : OS <> "ios") :
  (forall type',
     Alert.alert OS DMA DMW DMT title message buttons type
     = Alert.alert OS DMA DMW DMT title message buttons type')
  /\ ((exists m, OS = platform_of m
         /\ Alert.alert OS DMA DMW DMT title message buttons type
            = adapter (constants_of DMA DMW DMT) m title message buttons)
      \/ ((forall m, OS <> platform_of m)
          /\ Alert.alert OS DMA DMW DMT title message buttons type = ([], inr tt))).
Proof.
  unfold Alert.alert. apply String.eqb_neq in Hos. rewrite Hos. split; [ reflexivity | ].
  destruct (String.eqb_spec OS "android") as [-> | Ha];
    [ left; by exists DialogManagerAndroid | ].
  destruct (String.eqb_spec OS "windows") as [-> | Hw];
    [ left; by exists DialogManagerWindows | ].
  destruct (String.eqb_spec OS "tizen") as [-> | Ht];
    [ left; by exists DialogManagerTizen | ].
  right. split; [ by intros [] | reflexivity ].
Qed.

(** ** Concrete runs of the further properties *)

(** X2 on two lists that differ in [onPress] and [style] only. *)
Lemma config_depends_on_texts_only_witness :
  text <$> [with_onPress later_button 1; cancel_button]
  = text <$> [later_button; {| text := Some "Cancel"; onPress := Some 5; style := None |}]
  /\ configs (adapter sample DialogManagerAndroid (Defined "Title") (Defined "Msg")
                (Defined [with_onPress later_button 1; cancel_button]))
     = configs (adapter sample DialogManagerAndroid (Defined "Title") (Defined "Msg")
                  (Defined [later_button; {| text := Some "Cancel"; onPress := Some 5; style := None |}])).
Proof.
  split; [ reflexivity | ].
  exact (config_depends_on_texts_only sample sample DialogManagerAndroid
           (Defined "Title") (Defined "Msg")
           [with_onPress later_button 1; cancel_button]
           [later_button; {| text := Some "Cancel"; onPress := Some 5; style := None |}]
           eq_refl).
Defined.

(** X4 on the documented example: the negative role holds Cancel. *)
Lemma nonempty_strings_pass_through_witness :
  "Title" <> EmptyString /\ "Msg" <> EmptyString /\ "Cancel" <> EmptyString
  /\ assigned DialogManagerAndroid (Defined [later_button; cancel_button; ok_button]) Negative
     = Some cancel_button
  /\ text cancel_button = Some "Cancel"
  /\ exists c,
       configs (adapter sample DialogManagerAndroid (Defined "Title") (Defined "Msg")
                  (Defined [later_button; cancel_button; ok_button])) = [c]
       /\ c !! "title" = Some "Title"
       /\ c !! "message" = Some "Msg"
       /\ c !! "buttonNegative" = Some "Cancel".
Proof.
  assert (H1 : "Title" <> EmptyString) by discriminate.
  assert (H2 : "Msg" <> EmptyString) by discriminate.
  assert (H3 : "Cancel" <> EmptyString) by discriminate.
  repeat (split; [ first [ assumption | reflexivity ] | ]).
  exact (nonempty_strings_pass_through sample DialogManagerAndroid "Title" "Msg" "Cancel"
           (Defined [later_button; cancel_button; ok_button]) Negative cancel_button
           H1 H2 H3 eq_refl eq_refl).
Defined.

(** X7 on a dismissal reported to the Tizen wrapper. *)
Lemma result_callback_ignores_other_actions_witness :
  PStr "dismissed" <> DialogModule.buttonClicked (sample DialogManagerTizen)
  /\ exists c,
       showAlert_calls (trace (adapter sample DialogManagerTizen (Defined "Title")
                                 (Defined "Msg") (Defined [with_onPress ok_button 3]))) = [c]
       /\ sa_resultCallback c (PStr "dismissed") (PNum (-1)) = ([], inr tt).
Proof.
  assert (H : PStr "dismissed" <> DialogModule.buttonClicked (sample DialogManagerTizen))
    by discriminate.
  split; [ exact H | ].
  exact (result_callback_ignores_other_actions sample DialogManagerTizen
           (Defined "Title") (Defined "Msg") (Defined [with_onPress ok_button 3])
           (PStr "dismissed") (PNum (-1)) H).
Defined.

(** X10 on the single button OK for the Android wrapper: the neutral key
    throws, the positive key does not. *)
Lemma result_callback_throws_iff_witness :
  distinct_roles (sample DialogManagerAndroid)
  /\ exists c,
       showAlert_calls (trace (adapter sample DialogManagerAndroid (Defined "Title")
                                 (Defined "Msg") (Defined [ok_button]))) = [c]
       /\ completion (sa_resultCallback c (PStr "buttonClicked") (PNum (-3))) = inl TypeError
       /\ completion (sa_resultCallback c (PStr "buttonClicked") (PNum (-1))) = inr tt.
Proof.
  assert (Hd : distinct_roles (sample DialogManagerAndroid)) by compute_done.
  split; [ exact Hd | ].
  destruct (result_callback_throws_iff sample DialogManagerAndroid
              (Defined "Title") (Defined "Msg") (Defined [ok_button]) Hd)
    as (c & Hc & Hthrows).
  exists c. split; [ exact Hc | ]. split.
  - apply (Hthrows (PStr "buttonClicked") (PNum (-3))).
    split; [ reflexivity | ]. exists Neutral.
    split; [ left; reflexivity | split; reflexivity ].
  - destruct (Hthrows (PStr "buttonClicked") (PNum (-1))) as [Hiff [Hthrown | Hok]];
      [ | exact Hok ].
    apply Hiff in Hthrown as (_ & r & _ & Heq & Hnone).
    destruct r; discriminate.
Defined.

(** X11 with the sample constants. *)
Lemma windows_ignores_neutral_key_witness :
  distinct_roles (sample DialogManagerWindows)
  /\ exists c,
       showAlert_calls (trace (adapter sample DialogManagerWindows (Defined "Title")
                                 (Defined "Msg") (Defined [with_onPress ok_button 3]))) = [c]
       /\ sa_resultCallback c (PStr "buttonClicked") (PNum (-3)) = ([], inr tt).
Proof.
  assert (Hd : distinct_roles (sample DialogManagerWindows)) by compute_done.
  split; [ exact Hd | ].
  exact (windows_ignores_neutral_key sample (Defined "Title") (Defined "Msg")
           (Defined [with_onPress ok_button 3]) Hd).
Defined.

(** X12 on a click of the positive button for the Android wrapper. *)
Lemma result_callback_only_presses_witness :
  DialogManagerAndroid <> DialogManagerTizen
  /\ exists c,
       showAlert_calls (trace (adapter sample DialogManagerAndroid (Defined "Title")
                                 (Defined "Msg") (Defined [with_onPress ok_button 3]))) = [c]
       /\ trace (sa_resultCallback c (PStr "buttonClicked") (PNum (-1))) = [OnPress 3].
Proof.
  assert (H : DialogManagerAndroid <> DialogManagerTizen) by discriminate.
  split; [ exact H | ].
  destruct (result_callback_only_presses sample DialogManagerAndroid (Defined "Title")
              (Defined "Msg") (Defined [with_onPress ok_button 3]) H)
    as (c & Hc & Honly).
  exists c. split; [ exact Hc | ].
  rewrite Honly. injection Hc as <-. reflexivity.
Defined.

(** X14 on [alert('Title')] for the Windows wrapper. *)
Lemma default_button_press_calls_nothing_witness :
  distinct_roles (sample DialogManagerWindows)
  /\ absent (@Undefined Buttons)
  /\ exists c,
       showAlert_calls (trace (adapter sample DialogManagerWindows (Defined "Title")
                                 Undefined Undefined)) = [c]
       /\ presses (trace (sa_resultCallback c (PStr "buttonClicked") (PNum (-1)))) = []
       /\ completion (sa_resultCallback c (PStr "buttonClicked") (PNum (-1))) = inr tt.
Proof.
  assert (Hd : distinct_roles (sample DialogManagerWindows)) by compute_done.
  split; [ exact Hd | ]. split; [ left; reflexivity | ].
  exact (default_button_press_calls_nothing sample DialogManagerWindows (Defined "Title")
           Undefined Undefined Hd (or_introl eq_refl)).
Defined.

(** X15 on tizen with a legacy type: the Tizen wrapper runs. *)
Lemma dispatcher_off_ios_witness :
  "tizen" <> "ios"
  /\ Alert.alert "tizen" sample_constants sample_constants sample_constants
       (Defined "Title") (Defined "Msg") (Defined [ok_button]) (Defined "plain-text")
     = Alert.alert "tizen" sample_constants sample_constants sample_constants
         (Defined "Title") (Defined "Msg") (Defined [ok_button]) Undefined.
Proof.
  assert (H : "tizen" <> "ios") by discriminate.
  split; [ exact H | ].
  exact (proj1 (dispatcher_off_ios "tizen" sample_constants sample_constants sample_constants
                  (Defined "Title") (Defined "Msg") (Defined [ok_button])
                  (Defined "plain-text") H) Undefined).
Defined.
